(** * zotero-info-update: the lookup-and-update run, verified

    A shallow embedding of [zotero_info_update/zotero_info_update.py]
    (class [ZoteroInfoUpdate]), of the script [zotero_info_update/main.py]
    and of the dictionary built by [zotero_info_update/config.py].

    The program talks to an SQLite file through Python's [sqlite3] module.
    The three tables it reads and writes, the connection object and the
    few engine operations it calls ([connect], [cursor], [execute],
    [fetchall], [commit], [close]) are modelled in the first half of the
    file; the methods of the class and the script follow, written in a
    small state-and-exception monad over the connection object.

    Log records are not modelled: every [except] clause of the source
    logs and re-raises, every [finally] clause of the class only logs, so
    they are the identity on results and on the connection. *)

From Stdlib Require Import ZArith NArith List String Ascii Bool Lia.
From stdpp Require Import base option list gmap strings fin_maps.

Open Scope Z_scope.

(** ** Text

    A Python [str] is a sequence of Unicode code points; SQLite compares
    text character by character.  A character is its code point. *)

Definition codepoint := N.
Abbreviation text := (list codepoint).

(** An ASCII literal as [text]. *)
Definition txt (s : string) : text :=
  List.map N_of_ascii (list_ascii_of_string s).

Definition PERCENT : codepoint := 37%N.     (* '%' *)
Definition UNDERSCORE : codepoint := 95%N.  (* '_' *)
Definition NUL : codepoint := 0%N.          (* U+0000 *)

(** A [str] goes to SQLite as UTF-8.  The surrogates U+D800..U+DFFF have
    no UTF-8 form: binding a [str] that holds one raises
    [UnicodeEncodeError]. *)

Definition is_surrogate (c : codepoint) : bool :=
  ((55296 <=? c) && (c <=? 57343))%N.

Definition encodable_char (c : codepoint) : bool :=
  negb (is_surrogate c) && (c <=? 1114111)%N.

Definition encodable (t : text) : bool := forallb encodable_char t.

Definition utf8_size (c : codepoint) : N :=
  if (c <? 128)%N then 1%N
  else if (c <? 2048)%N then 2%N
  else if (c <? 65536)%N then 3%N
  else 4%N.

Definition utf8_length (t : text) : N :=
  fold_right (fun c n => (utf8_size c + n)%N) 0%N t.

(** ** The LIKE operator of SQLite

    [value LIKE pattern], with no ESCAPE clause: ['%'] stands for any run
    of characters (the empty one too), ['_'] for any one character, and
    every other character for itself, upper and lower case of the 26
    ASCII letters being identified (the default of SQLite, which does no
    case folding beyond ASCII).  SQLite reads both operands as C strings:
    each ends at its first U+0000, whatever follows. *)

Definition fold_case (c : codepoint) : codepoint :=
  if ((65 <=? c) && (c <=? 90))%N then (c + 32)%N else c.

Definition char_eq_ci (c d : codepoint) : bool :=
  N.eqb (fold_case c) (fold_case d).

Fixpoint nul_cut (t : text) : text :=
  match t with
  | [] => []
  | c :: t' => if N.eqb c NUL then [] else c :: nul_cut t'
  end.

Fixpoint like_chars (pattern value : text) : bool :=
  match pattern with
  | [] => match value with [] => true | _ :: _ => false end
  | c :: pattern' =>
      if N.eqb c PERCENT then
        (fix skip (v : text) : bool :=
           like_chars pattern' v
           || match v with [] => false | _ :: v' => skip v' end) value
      else
        match value with
        | [] => false
        | d :: value' =>
            (N.eqb c UNDERSCORE || char_eq_ci c d) && like_chars pattern' value'
        end
  end.

Definition like (pattern value : text) : bool :=
  like_chars (nul_cut pattern) (nul_cut value).

(** The pattern of a LIKE may not be longer than 50000 bytes
    (SQLITE_MAX_LIKE_PATTERN_LENGTH); a longer one makes every
    evaluation of the operator fail. *)

Definition LIKE_PATTERN_LIMIT : N := 50000%N.

Definition too_long (pattern : text) : bool :=
  (LIKE_PATTERN_LIMIT <? utf8_length pattern)%N.

(** A pattern the engine can be given and can evaluate. *)
Definition sendable (pattern : text) : bool :=
  encodable pattern && negb (too_long pattern).

(** Containment of a literal piece of text, ASCII case ignored: what a
    substring search that knows no wildcards computes. *)





Definition nul_free (t : text) : bool := forallb (fun c => negb (N.eqb c NUL)) t.

(** ** Exceptions

    The built-in exceptions and the exceptions of [sqlite3] that the
    program raises or lets through, each with its message. *)

Inductive exn :=
| ValueError (msg : text)
| TypeError (msg : text)
| NameError (msg : text)
| UnicodeEncodeError
| OperationalError (msg : text)
| IntegrityError (msg : text)
| DatabaseError (msg : text)
| ProgrammingError (msg : text).

Inductive result (A : Type) :=
| Ok (a : A)
| Raise (e : exn).
Arguments Ok {A} a.
Arguments Raise {A} e.

(** The two [ValueError]s of [get_item_id], under the names the
    specification gives them. *)

Definition InvalidInputError : exn :=
  ValueError (txt "Title name cannot be None or empty.").

Definition NotFoundError (title : text) : exn :=
  ValueError (txt "No matching item found for title: " ++ title).

(** ** The database schema the program consumes

    [items(itemID, dateAdded, clientDateModified, ...)],
    [itemData(itemID, valueID)] and [itemDataValues(valueID, value)].
    [itemID] is the primary key of [items], so the table is a finite map
    from identifiers to the remaining columns; the two other tables are
    kept as lists of rows, in storage order.  [dateAdded] is declared
    NOT NULL; the model keeps the column as text or NULL ([None]) and
    has the UPDATE refuse NULL. *)

Record item_row := ItemRow {
  dateAdded : option text;
  clientDateModified : option text
}.

Record itemData_row := ItemDataRow {
  id_itemID : Z;
  id_valueID : Z
}.

Record itemDataValues_row := ItemDataValuesRow {
  idv_valueID : Z;
  idv_value : text
}.

Record database := Database {
  items : gmap Z item_row;
  itemData : list itemData_row;
  itemDataValues : list itemDataValues_row
}.

(** A row of the result set of the SELECT of [get_item_id]:
    [i.itemID, id.valueID, idv.value, i.dateAdded, i.clientDateModified]. *)

Record result_row := ResultRow {
  r_itemID : Z;
  r_valueID : Z;
  r_value : text;
  r_dateAdded : option text;
  r_clientDateModified : option text
}.

(** The SELECT statement:
<<
    SELECT i.itemID, id.valueID, idv.value, i.dateAdded, i.clientDateModified
    FROM itemDataValues idv
    INNER JOIN itemData id ON id.valueID = idv.valueID
    INNER JOIN items i ON i.itemID = id.itemID
    WHERE idv.value LIKE ?
>>
    There is no ORDER BY.  Both joins are on the integer primary key of
    the joined table, [itemData] has no index on [valueID] in the schema
    above and a pattern that starts with ['%'] can use no index, so
    SQLite scans [itemData] and looks the two other tables up by key: the
    rows come in the storage order of [itemData].  The LIKE is evaluated
    as soon as the row of [itemDataValues] is at hand, before [items] is
    looked up. *)

Definition join_items (d : database) (idv : itemDataValues_row)
    (link : itemData_row) : list result_row :=
  match items d !! id_itemID link with
  | Some i =>
      [ResultRow (id_itemID link) (id_valueID link) (idv_value idv)
                 (dateAdded i) (clientDateModified i)]
  | None => []
  end.

(** The rows of [itemDataValues] with a given [valueID]. *)
Definition lookup_values (d : database) (value_id : Z)
    : list itemDataValues_row :=
  List.filter (fun idv => Z.eqb value_id (idv_valueID idv)) (itemDataValues d).

Definition join_link (pattern : text) (d : database) (link : itemData_row)
    : list result_row :=
  flat_map (fun idv =>
              if like pattern (idv_value idv)
              then join_items d idv link else [])
           (lookup_values d (id_valueID link)).

Definition select_like (pattern : text) (d : database) : list result_row :=
  flat_map (join_link pattern d) (itemData d).
Arguments select_like : simpl never.

(** Whether the scan evaluates the LIKE at all: some row of [itemData]
    has its row of [itemDataValues]. *)
Definition like_evaluated (d : database) : bool :=
  existsb (fun link =>
             match lookup_values d (id_valueID link) with
             | [] => false
             | _ :: _ => true
             end)
          (itemData d).

(** What running the SELECT raises, if anything: the parameter cannot
    be encoded, or it is too long a pattern and the LIKE is evaluated. *)
Definition select_error (pattern : text) (d : database) : option exn :=
  if negb (encodable pattern) then Some UnicodeEncodeError
  else if too_long pattern && like_evaluated d then
    Some (OperationalError (txt "LIKE or GLOB pattern too complex"))
  else None.

(** The outcome of the SELECT on a database: its result set or its error. *)
Definition run_select (pattern : text) (d : database)
    : result (list result_row) :=
  match select_error pattern d with
  | Some e => Raise e
  | None => Ok (select_like pattern d)
  end.

(** The UPDATE statement: [UPDATE items SET dateAdded = ? WHERE itemID = ?]. *)

Definition set_dateAdded (new_date : option text) (r : item_row) : item_row :=
  ItemRow new_date (clientDateModified r).

Definition update_items (new_date : option text) (item_id : Z)
    (d : database) : database :=
  Database (alter (set_dateAdded new_date) item_id (items d))
           (itemData d) (itemDataValues d).

(** ** The storage engine

    What a path of the file system holds: nothing (no entry), a file, or
    something that cannot be opened as a file nor created (a directory, a
    path whose parent is missing, a file without permission). *)

Inductive db_file :=
| ZoteroDb (d : database)     (* an SQLite file with the three tables *)
| ReadOnlyDb (d : database)   (* the same, in a file that cannot be written *)
| EmptyDb                     (* a zero-length file: a database without tables *)
| NotADb.                     (* a file that is not an SQLite database *)

Inductive node :=
| Blocked
| File (f : db_file).

Abbreviation Disk := (gmap text node).

Definition read_only (f : db_file) : bool :=
  match f with ReadOnlyDb _ => true | _ => false end.

(** Two names are no file names for SQLite: [":memory:"] is a new
    database in memory and the empty name a new temporary database.
    Both are private to the connection, empty, and gone when it closes. *)

Definition MEMORY : text := txt ":memory:".

Definition names_file (p : text) : bool :=
  match p with
  | [] => false
  | _ :: _ => negb (bool_decide (p = MEMORY))
  end.

(** The path is turned into a file-system name before SQLite sees it:
    a surrogate outside U+DC80..U+DCFF cannot be encoded, and U+0000
    cannot be part of a name. *)

Definition fs_encodable_char (c : codepoint) : bool :=
  encodable_char c || ((56448 <=? c) && (c <=? 56575))%N.

Definition path_error (p : text) : option exn :=
  if negb (forallb fs_encodable_char p) then Some UnicodeEncodeError
  else if negb (nul_free p) then Some (ValueError (txt "embedded null byte"))
  else None.

(** What the program did on a connection, in order. *)

Inductive db_op :=
| OpSelect (pattern : text)
| OpUpdate (new_date : option text) (item_id : Z)
| OpCommit
| OpClose.

(** The connection object [conn].  It is one mutable object shared by
    the script and the methods it is passed to; the model threads it as
    the state.  [c_store] is the committed content of the file, [c_txn]
    the content as seen inside a transaction that was not committed yet. *)

Record Connection := Conn {
  c_path : text;
  c_store : db_file;
  c_txn : option database;
  c_closed : bool;
  c_trace : list db_op
}.

Definition record_op (op : db_op) (c : Connection) : Connection :=
  Conn (c_path c) (c_store c) (c_txn c) (c_closed c) (c_trace c ++ [op]).

(** The tables a statement on table [tbl] sees through the connection. *)

Definition tables (tbl : string) (c : Connection) : result database :=
  if c_closed c then
    Raise (ProgrammingError (txt "Cannot operate on a closed database."))
  else
    match c_txn c with
    | Some d => Ok d
    | None =>
        match c_store c with
        | ZoteroDb d => Ok d
        | ReadOnlyDb d => Ok d
        | EmptyDb => Raise (OperationalError (txt "no such table: " ++ txt tbl))
        | NotADb => Raise (DatabaseError (txt "file is not a database"))
        end
    end.

(** The state-and-exception monad of the methods. *)

Definition M (A : Type) : Type := Connection -> result A * Connection.

Definition ret {A} (a : A) : M A := fun c => (Ok a, c).

Definition raise {A} (e : exn) : M A := fun c => (Raise e, c).

Definition bind {A B} (m : M A) (k : A -> M B) : M B :=
  fun c =>
    match m c with
    | (Ok a, c') => k a c'
    | (Raise e, c') => (Raise e, c')
    end.

Notation "x <- m ;; k" := (bind m (fun x => k))
  (at level 100, m at next level, right associativity).
Notation "m ;;; k" := (bind m (fun _ => k))
  (at level 100, right associativity).

(** [conn.cursor()] *)
Definition cursor : M unit :=
  fun c =>
    if c_closed c then
      (Raise (ProgrammingError (txt "Cannot operate on a closed database.")), c)
    else (Ok tt, c).

(** [cursor.execute(SELECT ..., (pattern,))] followed by
    [cursor.fetchall()]. *)
Definition execute_select (pattern : text) : M (list result_row) :=
  fun c =>
    let c1 := record_op (OpSelect pattern) c in
    match tables "itemDataValues" c with
    | Ok d => (run_select pattern d, c1)
    | Raise e => (Raise e, c1)
    end.

(** What the UPDATE raises after its transaction has begun, if anything:
    the date cannot be encoded, the file cannot be written, or the row
    exists and the date is NULL. *)
Definition update_error (new_date : option text) (item_id : Z)
    (store : db_file) (d : database) : option exn :=
  if negb (encodable (default [] new_date)) then Some UnicodeEncodeError
  else if read_only store then
    Some (OperationalError (txt "attempt to write a readonly database"))
  else
    match new_date, items d !! item_id with
    | None, Some _ =>
        Some (IntegrityError (txt "NOT NULL constraint failed: items.dateAdded"))
    | _, _ => None
    end.

(** [cursor.execute(UPDATE ..., (new_date, item_id))]: once the statement
    is compiled, a transaction is begun when none is open; the statement
    then changes the tables inside it, or raises and leaves it open. *)
Definition execute_update (new_date : option text) (item_id : Z) : M unit :=
  fun c =>
    let c1 := record_op (OpUpdate new_date item_id) c in
    match tables "items" c with
    | Ok d =>
        match update_error new_date item_id (c_store c) d with
        | Some e =>
            (Raise e,
             Conn (c_path c1) (c_store c1) (Some d) (c_closed c1) (c_trace c1))
        | None =>
            (Ok tt, Conn (c_path c1) (c_store c1)
                         (Some (update_items new_date item_id d))
                         (c_closed c1) (c_trace c1))
        end
    | Raise e => (Raise e, c1)
    end.

(** [conn.commit()]: the open transaction, when there is one, becomes the
    content of the file. *)
Definition commit : M unit :=
  fun c =>
    if c_closed c then
      (Raise (ProgrammingError (txt "Cannot operate on a closed database.")), c)
    else
      (Ok tt,
       Conn (c_path c)
            (match c_txn c with
             | Some d => if read_only (c_store c) then c_store c else ZoteroDb d
             | None => c_store c
             end)
            None false (c_trace c ++ [OpCommit])).

(** [conn.close()]: a transaction that was not committed is lost. *)
Definition close (c : Connection) : Connection :=
  Conn (c_path c) (c_store c) None true (c_trace c ++ [OpClose]).

(** [sqlite3.connect(path)], as the program calls it (no flags: the file
    is opened for reading and writing and created when it is missing). *)
Definition sqlite3_connect (path : option text) (disk : Disk)
    : result Connection * Disk :=
  match path with
  | None =>
      (Raise (TypeError
         (txt "expected str, bytes or os.PathLike object, not NoneType")),
       disk)
  | Some p =>
      match path_error p with
      | Some e => (Raise e, disk)
      | None =>
          if names_file p then
            match disk !! p with
            | Some Blocked =>
                (Raise (OperationalError (txt "unable to open database file")),
                 disk)
            | Some (File f) => (Ok (Conn p f None false []), disk)
            | None =>
                (Ok (Conn p EmptyDb None false []), <[p := File EmptyDb]> disk)
            end
          else (Ok (Conn p EmptyDb None false []), disk)
      end
  end.

(** ** [config.py] and the class [ZoteroInfoUpdate] *)

Record ZoteroInfoUpdate := Self {
  config : gmap string text;
  db_path : option text;
  new_date_added : option text;
  title_name : option text
}.

(** [ZoteroInfoUpdate.__init__(self, cfg)]: three [cfg.get(...)]. *)
Definition __init__ (cfg : gmap string text) : ZoteroInfoUpdate :=
  Self cfg (cfg !! "db_path"%string) (cfg !! "new_date_added"%string)
       (cfg !! "title_name"%string).

(** [config.py]: the dictionary, [DB_PATH] coming from the environment. *)
Definition NEW_DATE_ADDED : text := txt "2024-11-30 09:57:32".

Definition make_config (DB_PATH : option text) (TITLE_NAME : text)
    : gmap string text :=
  let base : gmap string text :=
    <["new_date_added"%string := NEW_DATE_ADDED]>
      (<["title_name"%string := TITLE_NAME]> ∅) in
  match DB_PATH with
  | Some p => <["db_path"%string := p]> base
  | None => base
  end.

(** [ZoteroInfoUpdate.connect_to_db(self)] *)
Definition connect_to_db (self : ZoteroInfoUpdate) (disk : Disk)
    : result Connection * Disk :=
  sqlite3_connect (db_path self) disk.

(** [not self.title_name]: [None] and the empty string are falsy. *)
Definition falsy_text (t : option text) : bool :=
  match t with
  | None => true
  | Some s => match s with [] => true | _ :: _ => false end
  end.

(** The parameter of the SELECT: ["%" + self.title_name + "%"]. *)
Definition like_pattern (title : text) : text :=
  [PERCENT] ++ title ++ [PERCENT].

(** [ZoteroInfoUpdate.get_item_id(self, conn)] *)
Definition get_item_id (self : ZoteroInfoUpdate) : M Z :=
  if falsy_text (title_name self) then raise InvalidInputError
  else
    let title := default [] (title_name self) in
    cursor ;;;
    results <- execute_select (like_pattern title) ;;
    match results with
    | [] => raise (NotFoundError title)
    | first :: _ => ret (r_itemID first)
    end.

(** [ZoteroInfoUpdate.update_date_added(self, conn)].  The test
    [if not item_id] only logs; the statements that follow run whatever
    its outcome. *)
Definition update_date_added (self : ZoteroInfoUpdate) : M unit :=
  item_id <- get_item_id self ;;
  cursor ;;;
  execute_update (new_date_added self) item_id ;;;
  commit.

(** ** [main.py]

    The names the script binds: [conn] and [itemId], each unbound
    ([None]) until its assignment has run.  [conn] refers to the one
    connection object, whose state is kept with the name. *)

Record Locals := Vars {
  v_conn : option Connection;
  v_itemId : option Z
}.

(** [conn = zotero_update_date_added.connect_to_db()] *)
Definition script_connect (self : ZoteroInfoUpdate) (disk : Disk)
    : result unit * Locals * Disk :=
  match connect_to_db self disk with
  | (Ok c, disk') => (Ok tt, Vars (Some c) None, disk')
  | (Raise e, disk') => (Raise e, Vars None None, disk')
  end.

(** Reading the name [conn]. *)
Definition unbound_conn : exn := NameError (txt "name 'conn' is not defined").

(** [itemId = zotero_update_date_added.get_item_id(conn)] *)
Definition script_resolve (self : ZoteroInfoUpdate) (l : Locals)
    : result unit * Locals :=
  match v_conn l with
  | None => (Raise unbound_conn, l)
  | Some c =>
      match get_item_id self c with
      | (Ok i, c') => (Ok tt, Vars (Some c') (Some i))
      | (Raise e, c') => (Raise e, Vars (Some c') (v_itemId l))
      end
  end.

(** [zotero_update_date_added.update_date_added(conn)] *)
Definition script_update (self : ZoteroInfoUpdate) (l : Locals)
    : result unit * Locals :=
  match v_conn l with
  | None => (Raise unbound_conn, l)
  | Some c =>
      let '(r, c') := update_date_added self c in
      (r, Vars (Some c') (v_itemId l))
  end.

(** The [try] block. *)
Definition script_try (self : ZoteroInfoUpdate) (disk : Disk)
    : result unit * Locals * Disk :=
  match script_connect self disk with
  | (Raise e, l, disk') => (Raise e, l, disk')
  | (Ok _, l, disk') =>
      match script_resolve self l with
      | (Raise e, l') => (Raise e, l', disk')
      | (Ok _, l') =>
          let '(r, l'') := script_update self l' in (r, l'', disk')
      end
  end.

(** The file system once the connection is closed: the file of the
    connection, when it has one, holds what was committed. *)
Definition write_back (c : Connection) (disk : Disk) : Disk :=
  if names_file (c_path c) then <[c_path c := File (c_store c)]> disk
  else disk.

(** The [finally] block, [if conn: conn.close()], run after the [try]
    block and its [except] clause (which logs and re-raises) left
    [pending].  An exception raised here replaces the pending one; a
    connection object is truthy. *)
Definition script_finally (pending : result unit) (l : Locals) (disk : Disk)
    : result unit * Locals * Disk :=
  match v_conn l with
  | None => (Raise unbound_conn, l, disk)
  | Some c =>
      let c' := close c in
      (pending, Vars (Some c') (v_itemId l), write_back c' disk)
  end.

(** The script: the outcome, the names at the end and the file system. *)
Definition main (cfg : gmap string text) (disk : Disk)
    : result unit * Locals * Disk :=
  let self := __init__ cfg in
  let '(r, l, disk') := script_try self disk in
  script_finally r l disk'.

Definition exit_code (r : result unit) : Z :=
  match r with Ok _ => 0 | Raise _ => 1 end.

(** ** Reading the database back *)

(** The database as the connection sees it, when it sees one. *)
Definition db_view (c : Connection) : option database :=
  match c_txn c with
  | Some d => Some d
  | None =>
      match c_store c with
      | ZoteroDb d => Some d
      | ReadOnlyDb d => Some d
      | _ => None
      end
  end.


(** The data values linked to an item, and the items one of whose data
    values matches a pattern the engine accepts. *)

Definition values_of (d : database) (value_id : Z) : list text :=
  List.map idv_value (lookup_values d value_id).

Definition item_values (d : database) (item_id : Z) : list text :=
  flat_map (fun link =>
              if Z.eqb (id_itemID link) item_id
              then values_of d (id_valueID link) else [])
           (itemData d).

Definition item_matches (pattern : text) (d : database) (item_id : Z) : bool :=
  sendable pattern && existsb (like pattern) (item_values d item_id).

Definition matching_items (pattern : text) (d : database) : list Z :=
  List.filter (item_matches pattern d) (List.map fst (map_to_list (items d))).

(** The whole join of the three tables, in the order of the scan. *)
Definition join_all (d : database) : list result_row :=
  flat_map (fun link =>
              flat_map (fun idv => join_items d idv link)
                       (lookup_values d (id_valueID link)))
           (itemData d).

(** ** Reading the effect of the UPDATE

    The vocabulary of the statements about [update_date_added]. *)

(** What the UPDATE does to a row of the result set of the SELECT. *)
Definition touch (new_date : option text) (item_id : Z) (r : result_row)
    : result_row :=
  if Z.eqb (r_itemID r) item_id
  then ResultRow (r_itemID r) (r_valueID r) (r_value r) new_date
                 (r_clientDateModified r)
  else r.

(** The database [d'] differs from [d] at most in the [dateAdded] column
    of the row [item_id] of [items]. *)
Definition same_but_dateAdded (item_id : Z) (d d' : database) : Prop :=
  itemData d' = itemData d /\
  itemDataValues d' = itemDataValues d /\
  dom (items d') = dom (items d) /\
  (forall j, j <> item_id -> items d' !! j = items d !! j) /\
  (forall j, clientDateModified <$> items d' !! j
             = clientDateModified <$> items d !! j).

(** The connection after a successful [update_date_added]. *)
Definition updated_conn (self : ZoteroInfoUpdate) (c : Connection)
    (t : text) (item_id : Z) (d : database) : Connection :=
  Conn (c_path c)
       (ZoteroDb (update_items (new_date_added self) item_id d))
       None false
       (c_trace c ++ [OpSelect (like_pattern t);
                      OpUpdate (new_date_added self) item_id;
                      OpCommit]).

(** The connection after an [update_date_added] whose UPDATE raised. *)
Definition failed_conn (self : ZoteroInfoUpdate) (c : Connection)
    (t : text) (item_id : Z) (d : database) : Connection :=
  Conn (c_path c) (c_store c) (Some d) false
       (c_trace c ++ [OpSelect (like_pattern t);
                      OpUpdate (new_date_added self) item_id]).

(** ** A small library

    The scenario of the specification: item 53 carries the value
    "The Design Of Everyday Things"; item 54 is another item. *)

Definition library_db : database :=
  Database
    (<[53 := ItemRow (Some (txt "2024-01-01 00:00:00"))
                     (Some (txt "2024-01-02 10:00:00"))]>
       (<[54 := ItemRow (Some (txt "2023-05-05 05:05:05")) None]> ∅))
    [ItemDataRow 53 385; ItemDataRow 54 386]
    [ItemDataValuesRow 385 (txt "The Design Of Everyday Things");
     ItemDataValuesRow 386 (txt "What are ethical frameworks?")].

Definition library_path : text := txt "/zotero/zotero.sqlite".

Definition library_disk : Disk :=
  <[library_path := File (ZoteroDb library_db)]>
    (<[txt "/root/secret.sqlite" := Blocked]> ∅).

Definition library_conn : Connection :=
  Conn library_path (ZoteroDb library_db) None false [].

Definition library_self (title : text) : ZoteroInfoUpdate :=
  __init__ (make_config (Some library_path) title).

(** Two more configurations on the same file system: a database path
    that cannot be opened, and a mistyped path at which no file exists. *)

Definition blocked_config : gmap string text :=
  make_config (Some (txt "/root/secret.sqlite")) (txt "Design Of Everyday").

Definition typo_path : text := txt "/zotero/zotero.sqlit".

Definition typo_config : gmap string text :=
  make_config (Some typo_path) (txt "Design Of Everyday").

Definition library_config : gmap string text :=
  make_config (Some library_path) (txt "Design Of Everyday").

(** A database whose tables are not stored in the same order: the
    first row of [itemData] belongs to item 2, the first row of
    [itemDataValues] to item 1. *)

Definition shelf_db : database :=
  Database
    (<[1 := ItemRow (Some (txt "2022-02-02 02:02:02")) None]>
       (<[2 := ItemRow (Some (txt "2021-01-01 01:01:01")) None]> ∅))
    [ItemDataRow 2 20; ItemDataRow 1 10]
    [ItemDataValuesRow 10 (txt "Ethics of AI");
     ItemDataValuesRow 20 (txt "AI and Ethics")].

Definition shelf_conn : Connection :=
  Conn (txt "/zotero/shelf.sqlite") (ZoteroDb shelf_db) None false [].

(** * Properties *)

(** ** LIKE *)

Section Like.











End Like.

(** ** The SELECT statement *)

Section Query.

Variable pattern : text.
Variable d : database.

Lemma in_lookup_values (value_id : Z) (idv : itemDataValues_row) :
  In idv (lookup_values d value_id) <->
  In idv (itemDataValues d) /\ value_id = idv_valueID idv.
Proof.
  unfold lookup_values. rewrite filter_In, Z.eqb_eq. reflexivity.
Qed.

Lemma in_join_items (idv : itemDataValues_row) (link : itemData_row)
    (r : result_row) :
  In r (join_items d idv link) <->
  exists i,
    items d !! id_itemID link = Some i /\
    r = ResultRow (id_itemID link) (id_valueID link) (idv_value idv)
                  (dateAdded i) (clientDateModified i).
Proof.
  unfold join_items. destruct (items d !! id_itemID link) as [i|]; simpl.
  - split.
    + intros [<-|[]]. eauto.
    + intros (i' & [= <-] & ->). auto.
  - split; [intros []|intros (i & [=] & _)].
Qed.

Lemma in_select_like (r : result_row) :
  In r (select_like pattern d) <->
  exists idv link i,
    In idv (itemDataValues d) /\ In link (itemData d) /\
    id_valueID link = idv_valueID idv /\
    items d !! id_itemID link = Some i /\
    like pattern (idv_value idv) = true /\
    r = ResultRow (id_itemID link) (id_valueID link) (idv_value idv)
                  (dateAdded i) (clientDateModified i).
Proof.
  unfold select_like, join_link. rewrite in_flat_map. split.
  - intros (link & Hlink & Hr).
    apply in_flat_map in Hr as (idv & Hidv & Hr).
    apply in_lookup_values in Hidv as [Hidv Hv].
    destruct (like pattern (idv_value idv)) eqn:Hlike; [|contradiction].
    apply in_join_items in Hr as (i & Hi & ->).
    exists idv, link, i. auto 10.
  - intros (idv & link & i & Hidv & Hlink & Hv & Hi & Hlike & ->).
    exists link. split; [assumption|].
    apply in_flat_map. exists idv. split.
    + apply in_lookup_values. auto.
    + rewrite Hlike. apply in_join_items. eauto.
Qed.

Lemma in_join_all (r : result_row) :
  In r (join_all d) <->
  exists idv link i,
    In idv (itemDataValues d) /\ In link (itemData d) /\
    id_valueID link = idv_valueID idv /\
    items d !! id_itemID link = Some i /\
    r = ResultRow (id_itemID link) (id_valueID link) (idv_value idv)
                  (dateAdded i) (clientDateModified i).
Proof.
  unfold join_all. rewrite in_flat_map. split.
  - intros (link & Hlink & Hr).
    apply in_flat_map in Hr as (idv & Hidv & Hr).
    apply in_lookup_values in Hidv as [Hidv Hv].
    apply in_join_items in Hr as (i & Hi & ->).
    exists idv, link, i. auto 10.
  - intros (idv & link & i & Hidv & Hlink & Hv & Hi & ->).
    exists link. split; [assumption|].
    apply in_flat_map. exists idv. split.
    + apply in_lookup_values. auto.
    + apply in_join_items. eauto.
Qed.

(** The LIKE is evaluated as soon as a row of [itemData] has its row of
    [itemDataValues]. *)
Lemma like_evaluated_iff :
  like_evaluated d = true <->
  exists idv link,
    In idv (itemDataValues d) /\ In link (itemData d) /\
    id_valueID link = idv_valueID idv.
Proof.
  unfold like_evaluated. rewrite existsb_exists. split.
  - intros (link & Hlink & Hsome).
    destruct (lookup_values d (id_valueID link)) as [|idv l] eqn:Hl;
      [discriminate|].
    assert (Hin : In idv (lookup_values d (id_valueID link)))
      by (rewrite Hl; left; reflexivity).
    apply in_lookup_values in Hin as [Hidv Hv]. eauto.
  - intros (idv & link & Hidv & Hlink & Hv).
    exists link. split; [assumption|].
    destruct (lookup_values d (id_valueID link)) as [|idv' l] eqn:Hl;
      [|reflexivity].
    assert (Hin : In idv (lookup_values d (id_valueID link)))
      by (apply in_lookup_values; auto).
    rewrite Hl in Hin. destruct Hin.
Qed.

Lemma select_like_evaluated (r : result_row) :
  In r (select_like pattern d) -> like_evaluated d = true.
Proof.
  intros Hr. apply in_select_like in Hr
    as (idv & link & i & Hidv & Hlink & Hv & _).
  apply like_evaluated_iff. eauto.
Qed.

Lemma in_values_of (value_id : Z) (v : text) :
  In v (values_of d value_id) <->
  exists idv, In idv (itemDataValues d) /\ value_id = idv_valueID idv /\
              v = idv_value idv.
Proof.
  unfold values_of. rewrite in_map_iff. split.
  - intros (idv & <- & Hin). apply in_lookup_values in Hin as [Hin Heq].
    eauto.
  - intros (idv & Hin & Heq & ->). exists idv. split; [reflexivity|].
    apply in_lookup_values. auto.
Qed.

Lemma in_item_values (item_id : Z) (v : text) :
  In v (item_values d item_id) <->
  exists link idv,
    In link (itemData d) /\ id_itemID link = item_id /\
    In idv (itemDataValues d) /\ id_valueID link = idv_valueID idv /\
    v = idv_value idv.
Proof.
  unfold item_values. rewrite in_flat_map. split.
  - intros (link & Hlink & Hv).
    destruct (Z.eqb_spec (id_itemID link) item_id) as [Hi|]; [|contradiction].
    apply in_values_of in Hv as (idv & Hidv & Heq & ->).
    exists link, idv. auto.
  - intros (link & idv & Hlink & Hi & Hidv & Heq & ->).
    exists link. split; [assumption|].
    apply Z.eqb_eq in Hi as ->. apply in_values_of. eauto.
Qed.

Lemma in_matching_items (item_id : Z) :
  In item_id (matching_items pattern d) <->
  is_Some (items d !! item_id) /\ item_matches pattern d item_id = true.
Proof.
  unfold matching_items. rewrite filter_In, in_map_iff. split.
  - intros [([k x] & <- & Hin) Hm]. split; [|exact Hm].
    apply list_elem_of_In, elem_of_map_to_list in Hin. simpl. eauto.
  - intros [[x Hx] Hm]. split; [|exact Hm].
    exists (item_id, x). split; [reflexivity|].
    apply list_elem_of_In, elem_of_map_to_list. exact Hx.
Qed.

(** The SELECT raises nothing when the engine accepts the pattern, and
    an accepted SELECT that returns a row had such a pattern. *)

Lemma sendable_select_error :
  sendable pattern = true -> select_error pattern d = None.
Proof.
  unfold sendable, select_error. intros Hs.
  apply andb_true_iff in Hs as [-> Hlen].
  apply negb_true_iff in Hlen. rewrite Hlen. reflexivity.
Qed.

Lemma select_error_sendable (r : result_row) :
  select_error pattern d = None -> In r (select_like pattern d) ->
  sendable pattern = true.
Proof.
  unfold select_error, sendable. intros Herr Hr.
  rewrite (select_like_evaluated r Hr) in Herr.
  destruct (encodable pattern); [|discriminate].
  destruct (too_long pattern); [discriminate|reflexivity].
Qed.

(** Every row of the result set of an accepted SELECT belongs to a
    matching item, and every matching item has a row in the result set. *)

Lemma select_like_matching (r : result_row) :
  select_error pattern d = None ->
  In r (select_like pattern d) -> In (r_itemID r) (matching_items pattern d).
Proof.
  intros Herr Hr.
  pose proof (select_error_sendable r Herr Hr) as Hs.
  apply in_select_like in Hr
    as (idv & link & i & Hidv & Hlink & Hv & Hi & Hlike & ->).
  apply in_matching_items. simpl. split; [eauto|].
  unfold item_matches. rewrite Hs. simpl.
  apply existsb_exists. exists (idv_value idv).
  split; [|exact Hlike].
  apply in_item_values. exists link, idv. auto.
Qed.

Lemma matching_select_like (item_id : Z) :
  In item_id (matching_items pattern d) ->
  sendable pattern = true /\
  exists r, In r (select_like pattern d) /\ r_itemID r = item_id.
Proof.
  intros Hin. apply in_matching_items in Hin as [[i Hi] Hm].
  unfold item_matches in Hm. apply andb_true_iff in Hm as [Hs Hm].
  split; [exact Hs|].
  apply existsb_exists in Hm as (v & Hv & Hlike).
  apply in_item_values in Hv as (link & idv & Hlink & Hid & Hidv & Heq & ->).
  subst item_id.
  exists (ResultRow (id_itemID link) (id_valueID link) (idv_value idv)
                    (dateAdded i) (clientDateModified i)).
  split; [|reflexivity].
  apply in_select_like. exists idv, link, i. auto 10.
Qed.

(** The result set of an accepted SELECT is empty exactly when no item
    matches. *)
Lemma select_like_nil_iff :
  select_error pattern d = None ->
  select_like pattern d = [] <-> matching_items pattern d = [].
Proof.
  intros Herr. split; intros Hnil.
  - destruct (matching_items pattern d) as [|j l] eqn:Hm; [reflexivity|].
    destruct (matching_select_like j) as (_ & r & Hr & _).
    { rewrite Hm. left. reflexivity. }
    rewrite Hnil in Hr. destruct Hr.
  - destruct (select_like pattern d) as [|r l] eqn:Hs; [reflexivity|].
    assert (Hin : In (r_itemID r) (matching_items pattern d)).
    { apply select_like_matching; [exact Herr|].
      rewrite Hs. left. reflexivity. }
    rewrite Hnil in Hin. destruct Hin.
Qed.

(** When some item matches, the SELECT is accepted and returns a row. *)
Lemma matching_run_select (item_id : Z) :
  In item_id (matching_items pattern d) ->
  exists first rest, run_select pattern d = Ok (first :: rest).
Proof.
  intros Hin. destruct (matching_select_like item_id Hin) as (Hs & r & Hr & _).
  unfold run_select. rewrite (sendable_select_error Hs).
  destruct (select_like pattern d) as [|first rest]; [destruct Hr|eauto].
Qed.

Lemma run_select_Ok (rows : list result_row) :
  run_select pattern d = Ok rows <->
  select_error pattern d = None /\ rows = select_like pattern d.
Proof.
  unfold run_select. destruct (select_error pattern d) as [e|].
  - split; [discriminate|intros [[=] _]].
  - split; [intros [= <-]; auto|intros [_ ->]; reflexivity].
Qed.

End Query.

(** ** [get_item_id] *)

Section Resolve.

Variable self : ZoteroInfoUpdate.
Variable c : Connection.

Lemma tables_open (tbl : string) (d : database) :
  c_closed c = false -> db_view c = Some d -> tables tbl c = Ok d.
Proof.
  unfold tables, db_view. intros -> Hv.
  destruct (c_txn c); [congruence|].
  destruct (c_store c); congruence.
Qed.

Lemma falsy_text_Some (t : text) : t <> [] -> falsy_text (Some t) = false.
Proof. destruct t; [congruence|reflexivity]. Qed.

(** One run of [get_item_id] on an open connection to a Zotero database. *)
Lemma get_item_id_open (d : database) (t : text) :
  title_name self = Some t -> t <> [] ->
  c_closed c = false -> db_view c = Some d ->
  get_item_id self c =
    (match run_select (like_pattern t) d with
     | Raise e => Raise e
     | Ok [] => Raise (NotFoundError t)
     | Ok (first :: _) => Ok (r_itemID first)
     end,
     record_op (OpSelect (like_pattern t)) c).
Proof.
  intros Ht Hne Hopen Hview. unfold get_item_id.
  rewrite Ht, (falsy_text_Some t Hne). simpl default.
  unfold bind, cursor, execute_select. rewrite Hopen.
  rewrite (tables_open _ d Hopen Hview).
  destruct (run_select (like_pattern t) d) as [[|first rest]|e]; reflexivity.
Qed.

(** [get_item_id] never changes what the connection holds; it can only
    add the SELECT to the trace. *)
Lemma get_item_id_state (r : result Z) (c' : Connection) :
  get_item_id self c = (r, c') ->
  c_path c' = c_path c /\ c_store c' = c_store c /\ c_txn c' = c_txn c /\
  c_closed c' = c_closed c /\
  (c_trace c' = c_trace c \/
   exists t, title_name self = Some t /\
             c_trace c' = c_trace c ++ [OpSelect (like_pattern t)]).
Proof.
  unfold get_item_id. destruct (title_name self) as [[|ch t]|]; simpl;
    try (intros [= <- <-]; auto 10).
  unfold bind, cursor, execute_select.
  destruct (c_closed c) eqn:Hcl.
  - intros [= <- <-]. auto 10.
  - destruct (tables "itemDataValues" c) as [d|e].
    + destruct (run_select (like_pattern (ch :: t)) d) as [[|first rest]|e];
        intros [= <- <-]; simpl; eauto 10.
    + intros [= <- <-]. simpl. eauto 10.
Qed.

End Resolve.

(** ** The item resolver *)




(** The first row is the first in the order of [itemData]: on the shelf
    both items match "ethics", and item 2 is returned. *)
Example get_item_id_first_row :
  In 1 (matching_items (like_pattern (txt "ethics")) shelf_db) /\
  In 2 (matching_items (like_pattern (txt "ethics")) shelf_db) /\
  fst (get_item_id (library_self (txt "ethics")) shelf_conn) = Ok 2.
Proof. repeat split; vm_compute; auto. Qed.

(** C2. On an open connection to a Zotero database and for a non-empty
    title, when the SELECT returns an empty result set no item matches
    the title and [get_item_id] raises the "No matching item found"
    error: no identifier is returned.  For a pattern the engine accepts,
    that is the case whenever no item matches. *)
Theorem get_item_id_not_found
    (self : ZoteroInfoUpdate) (c : Connection) (d : database) (t : text) :
  title_name self = Some t -> t <> [] ->
  c_closed c = false -> db_view c = Some d ->
  (run_select (like_pattern t) d = Ok [] ->
   matching_items (like_pattern t) d = [] /\
   get_item_id self c =
     (Raise (NotFoundError t), record_op (OpSelect (like_pattern t)) c)) /\
  (sendable (like_pattern t) = true ->
   matching_items (like_pattern t) d = [] ->
   get_item_id self c =
     (Raise (NotFoundError t), record_op (OpSelect (like_pattern t)) c)).
Proof.
  intros Ht Hne Hopen Hview.
  pose proof (get_item_id_open self c d t Ht Hne Hopen Hview) as Hrun.
  split.
  - intros Hsel. rewrite Hrun, Hsel. split; [|reflexivity].
    apply run_select_Ok in Hsel as [Herr Hrows].
    apply select_like_nil_iff; [exact Herr|]. symmetry. exact Hrows.
  - intros Hs Hzero. rewrite Hrun.
    pose proof (sendable_select_error (like_pattern t) d Hs) as Herr.
    apply (select_like_nil_iff _ _ Herr) in Hzero.
    unfold run_select. rewrite Herr, Hzero. reflexivity.
Qed.

Lemma get_item_id_not_found_witness :
  matching_items (like_pattern (txt "Nonexistent Title")) library_db = [] /\
  get_item_id (library_self (txt "Nonexistent Title")) library_conn =
    (Raise (NotFoundError (txt "Nonexistent Title")),
     record_op (OpSelect (like_pattern (txt "Nonexistent Title"))) library_conn).
Proof.
  apply (proj1 (get_item_id_not_found
                  (library_self (txt "Nonexistent Title")) library_conn
                  library_db (txt "Nonexistent Title")
                  ltac:(vm_compute; reflexivity) ltac:(discriminate)
                  ltac:(reflexivity) ltac:(reflexivity))).
  vm_compute. reflexivity.
Defined.

(** C3. When the title is [None] or empty, [get_item_id] raises the
    "Title name cannot be None or empty" error and the connection object
    is left exactly as it was: no statement was run on it, its trace
    included, whatever state the connection is in. *)
Theorem get_item_id_empty_title (self : ZoteroInfoUpdate) (c : Connection) :
  falsy_text (title_name self) = true ->
  get_item_id self c = (Raise InvalidInputError, c).
Proof.
  intros Hfalsy. unfold get_item_id. rewrite Hfalsy. reflexivity.
Qed.

Lemma get_item_id_empty_title_witness :
  get_item_id (library_self []) library_conn
  = (Raise InvalidInputError, library_conn).
Proof.
  apply (get_item_id_empty_title (library_self []) library_conn).
  vm_compute. reflexivity.
Defined.

(** ** The UPDATE statement *)

Section Update.

Variable new_date : option text.
Variable item_id : Z.

Lemma touch_itemID (r : result_row) : r_itemID (touch new_date item_id r) = r_itemID r.
Proof. unfold touch. destruct (Z.eqb (r_itemID r) item_id); reflexivity. Qed.

Lemma touch_value (r : result_row) : r_value (touch new_date item_id r) = r_value r.
Proof. unfold touch. destruct (Z.eqb (r_itemID r) item_id); reflexivity. Qed.

Lemma update_items_lookup (d : database) (j : Z) :
  items (update_items new_date item_id d) !! j =
  if Z.eqb j item_id then set_dateAdded new_date <$> items d !! j
  else items d !! j.
Proof.
  unfold update_items. simpl.
  destruct (Z.eqb_spec j item_id) as [->|Hne].
  - apply lookup_alter_eq.
  - apply lookup_alter_ne. congruence.
Qed.

Lemma join_items_update (d : database) (idv : itemDataValues_row)
    (link : itemData_row) :
  join_items (update_items new_date item_id d) idv link
  = List.map (touch new_date item_id) (join_items d idv link).
Proof.
  unfold join_items. rewrite update_items_lookup.
  unfold touch.
  destruct (Z.eqb (id_itemID link) item_id) eqn:Heq;
    destruct (items d !! id_itemID link) as [i|]; simpl;
    rewrite ?Heq; reflexivity.
Qed.

Lemma join_link_update (pattern : text) (d : database) (link : itemData_row) :
  join_link pattern (update_items new_date item_id d) link
  = List.map (touch new_date item_id) (join_link pattern d link).
Proof.
  unfold join_link.
  change (lookup_values (update_items new_date item_id d) (id_valueID link))
    with (lookup_values d (id_valueID link)).
  induction (lookup_values d (id_valueID link)) as [|idv idvs IH];
    [reflexivity|].
  simpl. rewrite List.map_app, IH. f_equal.
  destruct (like pattern (idv_value idv)); [|reflexivity].
  apply join_items_update.
Qed.

(** The result set after the UPDATE: the same rows in the same order,
    the rows of the updated item showing the new date. *)
Lemma select_like_update (pattern : text) (d : database) :
  select_like pattern (update_items new_date item_id d)
  = List.map (touch new_date item_id) (select_like pattern d).
Proof.
  unfold select_like. simpl itemData.
  induction (itemData d) as [|link links IH]; [reflexivity|].
  simpl. rewrite List.map_app, IH, join_link_update. reflexivity.
Qed.

(** The UPDATE changes nothing to what the SELECT raises. *)
Lemma select_error_update (pattern : text) (d : database) :
  select_error pattern (update_items new_date item_id d)
  = select_error pattern d.
Proof. reflexivity. Qed.

Lemma run_select_update (pattern : text) (d : database)
    (first : result_row) (rest : list result_row) :
  run_select pattern d = Ok (first :: rest) ->
  run_select pattern (update_items new_date item_id d)
  = Ok (touch new_date item_id first
        :: List.map (touch new_date item_id) rest).
Proof.
  unfold run_select. rewrite select_error_update.
  destruct (select_error pattern d); [discriminate|].
  intros [= Hsel]. rewrite select_like_update, Hsel. reflexivity.
Qed.

Lemma update_items_twice (d : database) :
  update_items new_date item_id (update_items new_date item_id d)
  = update_items new_date item_id d.
Proof.
  unfold update_items. simpl. f_equal.
  apply map_eq. intros j.
  destruct (decide (j = item_id)) as [->|Hne].
  - rewrite !lookup_alter_eq. destruct (items d !! item_id); reflexivity.
  - rewrite !lookup_alter_ne by congruence. reflexivity.
Qed.

(** An UPDATE that raised nothing wrote to a file that can be written,
    and raises nothing when it is run again on what it wrote. *)
Lemma update_error_writable (store : db_file) (d : database) :
  update_error new_date item_id store d = None -> read_only store = false.
Proof.
  unfold update_error.
  destruct (negb (encodable (default [] new_date))); [discriminate|].
  destruct (read_only store); [discriminate|reflexivity].
Qed.

Lemma update_error_again (store : db_file) (d : database) :
  update_error new_date item_id store d = None ->
  update_error new_date item_id
    (ZoteroDb (update_items new_date item_id d))
    (update_items new_date item_id d) = None.
Proof.
  unfold update_error.
  destruct (negb (encodable (default [] new_date))); [discriminate|].
  destruct (read_only store); [discriminate|]. simpl read_only. cbv iota.
  rewrite update_items_lookup, Z.eqb_refl.
  destruct new_date as [nd|]; [reflexivity|].
  destruct (items d !! item_id); [discriminate|reflexivity].
Qed.

(** With a date to write, the UPDATE raises only for a date that cannot
    be encoded or a file that cannot be written. *)
Lemma update_error_Some_date (nd : text) (store : db_file) (d : database) :
  new_date = Some nd -> encodable nd = true -> read_only store = false ->
  update_error new_date item_id store d = None.
Proof.
  intros -> Henc Hro. unfold update_error. simpl default.
  rewrite Henc, Hro. reflexivity.
Qed.

End Update.

Lemma same_but_dateAdded_refl (item_id : Z) (d : database) :
  same_but_dateAdded item_id d d.
Proof. unfold same_but_dateAdded. auto 10. Qed.

Lemma same_but_dateAdded_update (new_date : option text) (item_id : Z)
    (d : database) :
  same_but_dateAdded item_id d (update_items new_date item_id d).
Proof.
  unfold same_but_dateAdded, update_items. simpl.
  repeat split.
  - apply dom_alter_L.
  - intros j Hne. apply lookup_alter_ne. congruence.
  - intros j. destruct (decide (j = item_id)) as [->|Hne].
    + rewrite lookup_alter_eq. destruct (items d !! item_id); reflexivity.
    + rewrite lookup_alter_ne by congruence. reflexivity.
Qed.

(** ** [update_date_added] *)

Section UpdateDateAdded.

Variable self : ZoteroInfoUpdate.

(** The run in which the UPDATE raises nothing. *)
Lemma update_date_added_open (c : Connection) (d : database) (t : text)
    (first : result_row) (rest : list result_row) :
  title_name self = Some t -> t <> [] ->
  c_closed c = false -> db_view c = Some d ->
  run_select (like_pattern t) d = Ok (first :: rest) ->
  update_error (new_date_added self) (r_itemID first) (c_store c) d = None ->
  update_date_added self c = (Ok tt, updated_conn self c t (r_itemID first) d).
Proof.
  intros Ht Hne Hopen Hview Hsel Herr.
  unfold update_date_added, bind at 1.
  rewrite (get_item_id_open self c d t Ht Hne Hopen Hview), Hsel.
  set (c1 := record_op (OpSelect (like_pattern t)) c).
  assert (Hopen1 : c_closed c1 = false) by exact Hopen.
  assert (Hview1 : db_view c1 = Some d) by exact Hview.
  unfold bind, cursor, execute_update, commit. rewrite Hopen1.
  rewrite (tables_open c1 _ d Hopen1 Hview1).
  change (c_store c1) with (c_store c). rewrite Herr.
  unfold c1. cbn [c_closed c_txn c_store c_path c_trace record_op].
  rewrite Hopen, (update_error_writable _ _ _ _ Herr).
  unfold updated_conn. do 2 f_equal.
  rewrite <- !app_assoc. reflexivity.
Qed.

(** The run in which the UPDATE raises: nothing is committed and the
    transaction the UPDATE began stays open. *)
Lemma update_date_added_update_raises (c : Connection) (d : database)
    (t : text) (first : result_row) (rest : list result_row) (e : exn) :
  title_name self = Some t -> t <> [] ->
  c_closed c = false -> db_view c = Some d ->
  run_select (like_pattern t) d = Ok (first :: rest) ->
  update_error (new_date_added self) (r_itemID first) (c_store c) d = Some e ->
  update_date_added self c = (Raise e, failed_conn self c t (r_itemID first) d).
Proof.
  intros Ht Hne Hopen Hview Hsel Herr.
  unfold update_date_added, bind at 1.
  rewrite (get_item_id_open self c d t Ht Hne Hopen Hview), Hsel.
  set (c1 := record_op (OpSelect (like_pattern t)) c).
  assert (Hopen1 : c_closed c1 = false) by exact Hopen.
  assert (Hview1 : db_view c1 = Some d) by exact Hview.
  unfold bind, cursor, execute_update. rewrite Hopen1.
  rewrite (tables_open c1 _ d Hopen1 Hview1).
  change (c_store c1) with (c_store c). rewrite Herr.
  unfold c1. cbn [c_closed c_txn c_store c_path c_trace record_op].
  rewrite Hopen.
  unfold failed_conn. do 2 f_equal.
  rewrite <- !app_assoc. reflexivity.
Qed.

(** [get_item_id] returns only on an open connection to a Zotero
    database in which the title was found. *)
Lemma get_item_id_Ok_inv (c : Connection) (i : Z) (c' : Connection) :
  get_item_id self c = (Ok i, c') ->
  exists d t first rest,
    title_name self = Some t /\ t <> [] /\
    c_closed c = false /\ db_view c = Some d /\
    run_select (like_pattern t) d = Ok (first :: rest).
Proof.
  unfold get_item_id.
  destruct (title_name self) as [[|ch t]|] eqn:Ht; simpl; try discriminate.
  unfold bind, cursor, execute_select, tables, db_view. cbv beta.
  destruct (c_closed c) eqn:Hopen; rewrite ?Hopen; cbn iota; [discriminate|].
  destruct (c_txn c) as [d|] eqn:Htxn;
    [|destruct (c_store c) as [d|d| |] eqn:Hst; cbn iota; try discriminate];
    (destruct (run_select (like_pattern (ch :: t)) d)
       as [[|first rest]|e] eqn:Hsel; cbn iota; try discriminate;
     intros _; exists d, (ch :: t), first, rest;
     repeat split; congruence).
Qed.

(** Whenever [update_date_added] runs, either [get_item_id] raises and
    so does it, leaving the connection as [get_item_id] left it, or the
    connection is open on a Zotero database in which the title is found
    (and the UPDATE is run). *)
Lemma update_date_added_cases (c : Connection) :
  (exists e c',
      get_item_id self c = (Raise e, c') /\
      update_date_added self c = (Raise e, c')) \/
  (exists d t first rest,
      title_name self = Some t /\ t <> [] /\
      c_closed c = false /\ db_view c = Some d /\
      run_select (like_pattern t) d = Ok (first :: rest)).
Proof.
  destruct (get_item_id self c) as [[i|e] c'] eqn:Hget.
  - right. exact (get_item_id_Ok_inv c i c' Hget).
  - left. exists e, c'. split; [reflexivity|].
    unfold update_date_added, bind at 1. rewrite Hget. reflexivity.
Qed.

End UpdateDateAdded.

Section UpdateDateAddedTwice.

Variable self : ZoteroInfoUpdate.

(** The outcome of [get_item_id] depends on the connection only through
    what it holds, not through its path or trace. *)
Lemma get_item_id_ext (c1 c2 : Connection) :
  c_closed c1 = c_closed c2 -> c_txn c1 = c_txn c2 ->
  c_store c1 = c_store c2 ->
  fst (get_item_id self c1) = fst (get_item_id self c2).
Proof.
  destruct c1 as [p1 s1 x1 b1 tr1], c2 as [p2 s2 x2 b2 tr2]. simpl.
  intros -> -> ->. unfold get_item_id.
  destruct (falsy_text (title_name self)); [reflexivity|].
  unfold bind, cursor, execute_select, tables.
  destruct b2; [reflexivity|].
  destruct x2 as [d|]; [|destruct s2 as [d|d| |]];
    simpl; try reflexivity;
    destruct (run_select _ d) as [[|? ?]|?]; reflexivity.
Qed.

(** On open connections it depends only on the database they see. *)
Lemma get_item_id_view (c1 c2 : Connection) (d : database) :
  c_closed c1 = false -> c_closed c2 = false ->
  db_view c1 = Some d -> db_view c2 = Some d ->
  fst (get_item_id self c1) = fst (get_item_id self c2).
Proof.
  intros Ho1 Ho2 Hv1 Hv2.
  destruct (title_name self) as [[|ch t]|] eqn:Ht.
  - unfold get_item_id. rewrite Ht. reflexivity.
  - rewrite (get_item_id_open self c1 d (ch :: t) Ht ltac:(discriminate) Ho1 Hv1).
    rewrite (get_item_id_open self c2 d (ch :: t) Ht ltac:(discriminate) Ho2 Hv2).
    reflexivity.
  - unfold get_item_id. rewrite Ht. reflexivity.
Qed.

Lemma update_date_added_raises (c : Connection) (e : exn) (c' : Connection) :
  get_item_id self c = (Raise e, c') ->
  update_date_added self c = (Raise e, c').
Proof.
  intros Hget. unfold update_date_added, bind at 1. rewrite Hget. reflexivity.
Qed.

End UpdateDateAddedTwice.

(** ** The field updater *)



(** C5. Running [update_date_added] a second time on the connection the
    first run left gives the same outcome as the first run and leaves in
    the connection the database the first run left: the content of the
    file and the open transaction, if any, are the same after two runs
    as after one. *)
Theorem update_date_added_idempotent (self : ZoteroInfoUpdate) (c : Connection) :
  let once := update_date_added self c in
  let twice := update_date_added self (snd once) in
  fst twice = fst once /\
  c_store (snd twice) = c_store (snd once) /\
  c_txn (snd twice) = c_txn (snd once).
Proof.
  cbv zeta.
  destruct (update_date_added_cases self c)
    as [(e & c1 & Hget & Hfail)
       |(d & t & first & rest & Ht & Hne & Hopen & Hview & Hsel)].
  - rewrite Hfail. simpl snd. simpl fst.
    destruct (get_item_id_state self c _ _ Hget)
      as (_ & Hst & Htxn & Hcl & _).
    pose proof (get_item_id_ext self c1 c Hcl Htxn Hst) as Hsame.
    rewrite Hget in Hsame. simpl in Hsame.
    destruct (get_item_id self c1) as [r2 c2] eqn:Hget1.
    simpl in Hsame. subst r2.
    rewrite (update_date_added_raises self c1 e c2 Hget1). simpl.
    destruct (get_item_id_state self c1 _ _ Hget1) as (_ & Hst2 & Htxn2 & _).
    auto.
  - set (nd := new_date_added self). set (i := r_itemID first).
    destruct (update_error nd i (c_store c) d) as [e|] eqn:Herr.
    + rewrite (update_date_added_update_raises self c d t first rest e
                 Ht Hne Hopen Hview Hsel Herr).
      simpl snd. simpl fst. fold i.
      rewrite (update_date_added_update_raises self (failed_conn self c t i d)
                 d t first rest e Ht Hne eq_refl eq_refl Hsel Herr).
      simpl. auto.
    + rewrite (update_date_added_open self c d t first rest
                 Ht Hne Hopen Hview Hsel Herr).
      simpl snd. simpl fst. fold i. fold nd.
      pose proof (run_select_update nd i _ _ _ _ Hsel) as Hsel1.
      pose proof (update_error_again nd i _ _ Herr) as Herr1.
      assert (Hi : r_itemID (touch nd i first) = i) by apply touch_itemID.
      rewrite <- Hi in Herr1 at 1.
      rewrite (update_date_added_open self (updated_conn self c t i d)
                 (update_items nd i d) t _ _ Ht Hne eq_refl eq_refl Hsel1 Herr1).
      rewrite Hi. simpl. fold nd.
      rewrite update_items_twice. auto.
Qed.

(** C6. [get_item_id] changes neither the content of the file nor the
    open transaction.  [update_date_added] leaves the database seen
    through the connection as it was but for the [dateAdded] column of
    one row of [items]: the two other tables, the set of identifiers of
    [items], every other row and the [clientDateModified] of every row
    are the same; and when the connection sees no database, it changes
    nothing. *)
Theorem update_date_added_frame (self : ZoteroInfoUpdate) (c : Connection) :
  let resolved := snd (get_item_id self c) in
  let updated := snd (update_date_added self c) in
  (c_store resolved = c_store c /\ c_txn resolved = c_txn c) /\
  match db_view c with
  | Some d =>
      exists item_id d',
        db_view updated = Some d' /\ same_but_dateAdded item_id d d'
  | None => c_store updated = c_store c /\ c_txn updated = c_txn c
  end.
Proof.
  cbv zeta. split.
  - destruct (get_item_id self c) as [r c1] eqn:Hget.
    destruct (get_item_id_state self c r c1 Hget) as (_ & Hst & Htxn & _).
    auto.
  - destruct (update_date_added_cases self c)
      as [(e & c1 & Hget & Hfail)
         |(d & t & first & rest & Ht & Hne & Hopen & Hview & Hsel)].
    + rewrite Hfail. simpl snd.
      destruct (get_item_id_state self c _ _ Hget) as (_ & Hst & Htxn & _).
      assert (Hv : db_view c1 = db_view c).
      { unfold db_view. rewrite Hst, Htxn. reflexivity. }
      destruct (db_view c) as [d|]; [|auto].
      exists 0, d. split; [exact Hv|apply same_but_dateAdded_refl].
    + rewrite Hview.
      destruct (update_error (new_date_added self) (r_itemID first)
                             (c_store c) d) as [e|] eqn:Herr.
      * rewrite (update_date_added_update_raises self c d t first rest e
                   Ht Hne Hopen Hview Hsel Herr).
        simpl snd. exists 0, d.
        split; [reflexivity|apply same_but_dateAdded_refl].
      * rewrite (update_date_added_open self c d t first rest
                   Ht Hne Hopen Hview Hsel Herr).
        simpl snd.
        exists (r_itemID first),
               (update_items (new_date_added self) (r_itemID first) d).
        split; [reflexivity|apply same_but_dateAdded_update].
Qed.

(** ** The script *)

Section Script.

Variable cfg : gmap string text.
Variable disk : Disk.

(** When the connection cannot be opened, the name [conn] is never
    bound and the [finally] block fails on reading it. *)
Lemma main_not_connected (e : exn) (disk0 : Disk) :
  connect_to_db (__init__ cfg) disk = (Raise e, disk0) ->
  main cfg disk = (Raise unbound_conn, Vars None None, disk0).
Proof.
  intros Hconn. unfold main, script_try, script_connect.
  rewrite Hconn. reflexivity.
Qed.

(** When the connection is opened, the script ends with the outcome of
    its [try] block and with the connection closed. *)
Lemma main_connected (c0 : Connection) (disk0 : Disk) :
  connect_to_db (__init__ cfg) disk = (Ok c0, disk0) ->
  exists r c1 v,
    main cfg disk
    = (r, Vars (Some (close c1)) v, write_back (close c1) disk0) /\
    (get_item_id (__init__ cfg) ;;; update_date_added (__init__ cfg)) c0
    = (r, c1).
Proof.
  intros Hconn. unfold main, script_try, script_connect.
  rewrite Hconn. unfold script_resolve, bind at 1.
  cbn [v_conn v_itemId].
  destruct (get_item_id (__init__ cfg) c0) as [[i|e] c1].
  - unfold script_update. cbn [v_conn v_itemId].
    destruct (update_date_added (__init__ cfg) c1) as [r c2].
    exists r, c2, (Some i). split; reflexivity.
  - exists (Raise e), c1, None. split; reflexivity.
Qed.

(** A successful run: the connection was opened on a Zotero database in
    which the title is found, and the trace of the connection is two
    SELECTs, the UPDATE, the commit and the close. *)
Lemma main_succeeds (l : Locals) (disk' : Disk) :
  main cfg disk = (Ok tt, l, disk') ->
  exists c0 disk0 d t first rest,
    connect_to_db (__init__ cfg) disk = (Ok c0, disk0) /\
    title_name (__init__ cfg) = Some t /\ t <> [] /\
    db_view c0 = Some d /\
    run_select (like_pattern t) d = Ok (first :: rest) /\
    update_error (new_date_added (__init__ cfg)) (r_itemID first)
                 (c_store c0) d = None /\
    l = Vars (Some (close (updated_conn (__init__ cfg)
                             (record_op (OpSelect (like_pattern t)) c0)
                             t (r_itemID first) d)))
             (Some (r_itemID first)) /\
    disk' = write_back (close (updated_conn (__init__ cfg)
                                 (record_op (OpSelect (like_pattern t)) c0)
                                 t (r_itemID first) d)) disk0.
Proof.
  intros Hmain.
  destruct (connect_to_db (__init__ cfg) disk) as [[c0|e] disk0] eqn:Hconn.
  2: { rewrite (main_not_connected e disk0 Hconn) in Hmain. discriminate. }
  revert Hmain. unfold main, script_try, script_connect.
  rewrite Hconn. unfold script_resolve.
  cbn [v_conn v_itemId].
  destruct (get_item_id (__init__ cfg) c0) as [[i|e] c1] eqn:Hget.
  2: { unfold script_finally. cbn [v_conn]. discriminate. }
  destruct (get_item_id_Ok_inv _ _ _ _ Hget)
    as (d & t & first & rest & Ht & Hne & Hopen & Hview & Hsel).
  rewrite (get_item_id_open _ c0 d t Ht Hne Hopen Hview), Hsel in Hget.
  injection Hget as <- <-.
  unfold script_update. cbn [v_conn v_itemId].
  set (c1 := record_op (OpSelect (like_pattern t)) c0).
  destruct (update_error (new_date_added (__init__ cfg)) (r_itemID first)
                         (c_store c0) d) as [e|] eqn:Herr.
  - rewrite (update_date_added_update_raises (__init__ cfg) c1 d t first rest e
               Ht Hne Hopen Hview Hsel Herr).
    unfold script_finally. cbn [v_conn]. discriminate.
  - rewrite (update_date_added_open (__init__ cfg) c1 d t first rest
               Ht Hne Hopen Hview Hsel Herr).
    unfold script_finally. cbn [v_conn v_itemId].
    intros [= <- <-].
    exists c0, disk0, d, t, first, rest. auto 10.
Qed.

End Script.

Lemma path_error_not_NameError (p : text) (e : exn) :
  path_error p = Some e -> unbound_conn <> e.
Proof.
  unfold path_error.
  destruct (negb (forallb fs_encodable_char p)); [intros [= <-]; discriminate|].
  destruct (negb (nul_free p)); [intros [= <-]; discriminate|discriminate].
Qed.


(** X16. When the connection is opened, the script ends with the connection
    closed and with the outcome of its [try] block; when it is not, the
    script ends with the [NameError] of the [finally] block, which is not
    the error of the connection. *)
Lemma main_close_step (cfg : gmap string text) (disk : Disk) :
  match connect_to_db (__init__ cfg) disk with
  | (Ok c0, disk0) =>
      exists r l disk' c',
        main cfg disk = (r, l, disk') /\
        v_conn l = Some c' /\ c_closed c' = true /\ c_txn c' = None /\
        r = fst ((get_item_id (__init__ cfg) ;;;
                  update_date_added (__init__ cfg)) c0)
  | (Raise e, disk0) =>
      main cfg disk = (Raise unbound_conn, Vars None None, disk0) /\
      unbound_conn <> e
  end.
Proof.
  destruct (connect_to_db (__init__ cfg) disk) as [[c0|e] disk0] eqn:Hconn.
  - destruct (main_connected cfg disk c0 disk0 Hconn)
      as (r & c1 & v & Hmain & Hbody).
    exists r, (Vars (Some (close c1)) v),
           (write_back (close c1) disk0), (close c1).
    rewrite Hbody. auto.
  - split; [exact (main_not_connected cfg disk e disk0 Hconn)|].
    revert Hconn. unfold connect_to_db, sqlite3_connect.
    destruct (db_path (__init__ cfg)) as [p|]; [|intros [= <- _]; discriminate].
    destruct (path_error p) as [e'|] eqn:Hpe.
    { intros [= <- _]. exact (path_error_not_NameError p e' Hpe). }
    destruct (names_file p); [|discriminate].
    destruct (disk !! p) as [[|f]|]; intros [= <- _]; discriminate.
Qed.

(** C7. The connection cannot be opened at a path the file system
    blocks: [connect_to_db] raises [OperationalError], the name [conn]
    is never bound, and the script ends with the [NameError] raised by
    [if conn:] in its [finally] block instead of the connection error. *)
Theorem main_blocked_path_raises_NameError :
  fst (connect_to_db (__init__ blocked_config) library_disk)
  = Raise (OperationalError (txt "unable to open database file")) /\
  main blocked_config library_disk
  = (Raise (NameError (txt "name 'conn' is not defined")),
     Vars None None, library_disk).
Proof. split; vm_compute; reflexivity. Qed.

(** ** The connection manager *)

(** C8, as the claim states it, fails: at a path where no file exists,
    [connect_to_db] raises nothing; it returns an open connection and
    the file system holds a new, empty database at that path. *)
Lemma connect_to_db_creates_missing_file :
  library_disk !! typo_path = None /\
  (forall e, fst (connect_to_db (__init__ typo_config) library_disk)
             <> Raise e) /\
  connect_to_db (__init__ typo_config) library_disk
  = (Ok (Conn typo_path EmptyDb None false []),
     <[typo_path := File EmptyDb]> library_disk).
Proof.
  assert (Hrun : connect_to_db (__init__ typo_config) library_disk
                 = (Ok (Conn typo_path EmptyDb None false []),
                    <[typo_path := File EmptyDb]> library_disk)).
  { unfold connect_to_db, sqlite3_connect.
    replace (db_path (__init__ typo_config)) with (Some typo_path)
      by (vm_compute; reflexivity).
    replace (path_error typo_path) with (@None exn)
      by (vm_compute; reflexivity).
    replace (names_file typo_path) with true by (vm_compute; reflexivity).
    replace (library_disk !! typo_path) with (@None node)
      by (vm_compute; reflexivity).
    reflexivity. }
  split; [vm_compute; reflexivity|].
  split; [|exact Hrun].
  intros e. rewrite Hrun. discriminate.
Qed.

(** C8, amended.  [connect_to_db] raises exactly when no path is
    configured, the path is no valid name, or it names a file that the
    file system blocks; it raises the error of the storage engine and
    does not touch the file system.  Otherwise it returns a fresh open
    connection.  For a path that names a file the connection is to the
    file at the path, and when no file exists there an empty database is
    created at the path; for the names [""] and [":memory:"] the
    connection is to a private empty database and the file system is
    left as it was. *)
Theorem connect_to_db_outcome (self : ZoteroInfoUpdate) (disk : Disk) :
  ((exists e, fst (connect_to_db self disk) = Raise e) <->
   (db_path self = None \/
    exists p, db_path self = Some p /\
              (path_error p <> None \/
               (names_file p = true /\ disk !! p = Some Blocked)))) /\
  (forall e disk',
      connect_to_db self disk = (Raise e, disk') ->
      disk' = disk /\
      (e = TypeError
             (txt "expected str, bytes or os.PathLike object, not NoneType")
       \/ (exists p, db_path self = Some p /\ path_error p = Some e)
       \/ e = OperationalError (txt "unable to open database file"))) /\
  (forall c disk',
      connect_to_db self disk = (Ok c, disk') ->
      db_path self = Some (c_path c) /\
      c_closed c = false /\ c_txn c = None /\ c_trace c = [] /\
      (forall q, q <> c_path c -> disk' !! q = disk !! q) /\
      if names_file (c_path c)
      then disk' !! c_path c = Some (File (c_store c))
      else c_store c = EmptyDb /\ disk' = disk) /\
  (forall p,
      db_path self = Some p -> path_error p = None ->
      names_file p = true -> disk !! p = None ->
      connect_to_db self disk
      = (Ok (Conn p EmptyDb None false []), <[p := File EmptyDb]> disk)).
Proof.
  unfold connect_to_db, sqlite3_connect.
  destruct (db_path self) as [p|].
  2: { split; [|split; [|split]].
       - split; [auto|]. intros _. eauto.
       - intros e disk' [= <- <-]. auto.
       - intros c disk' [=].
       - intros p [=]. }
  destruct (path_error p) as [pe|] eqn:Hpe.
  { split; [|split; [|split]].
    - split; [|eauto]. intros _. right. exists p. split; [reflexivity|].
      left. congruence.
    - intros e disk' [= <- <-]. split; [reflexivity|].
      right. left. eauto.
    - intros c disk' [=].
    - intros q [= <-]. congruence. }
  destruct (names_file p) eqn:Hnf.
  - destruct (disk !! p) as [[|f]|] eqn:Hp.
    + split; [|split; [|split]].
      * split; [|eauto]. intros _. right. exists p. auto.
      * intros e disk' [= <- <-]. auto.
      * intros c disk' [=].
      * intros q [= <-]. congruence.
    + split; [|split; [|split]].
      * split; [intros [e [=]]|].
        intros [[=]|(q & [= <-] & [Hq|[_ Hq]])]; congruence.
      * intros e disk' [=].
      * intros c disk' [= <- <-]. simpl. rewrite Hnf. auto 10.
      * intros q [= <-]. congruence.
    + split; [|split; [|split]].
      * split; [intros [e [=]]|].
        intros [[=]|(q & [= <-] & [Hq|[_ Hq]])]; congruence.
      * intros e disk' [=].
      * intros c disk' [= <- <-]. simpl. rewrite Hnf.
        rewrite lookup_insert_eq. repeat split; try reflexivity.
        intros q Hq. apply lookup_insert_ne. congruence.
      * intros q [= <-] _ _ _. reflexivity.
  - split; [|split; [|split]].
    + split; [intros [e [=]]|].
      intros [[=]|(q & [= <-] & [Hq|[Hq _]])]; congruence.
    + intros e disk' [=].
    + intros c disk' [= <- <-]. simpl. rewrite Hnf. auto 10.
    + intros q [= <-]. congruence.
Qed.

Lemma connect_to_db_outcome_witness :
  connect_to_db (__init__ typo_config) library_disk
  = (Ok (Conn typo_path EmptyDb None false []),
     <[typo_path := File EmptyDb]> library_disk).
Proof.
  apply (proj2 (proj2 (proj2 (connect_to_db_outcome
                                (__init__ typo_config) library_disk)))).
  - vm_compute. reflexivity.
  - vm_compute. reflexivity.
  - vm_compute. reflexivity.
  - vm_compute. reflexivity.
Defined.

(** No file is made for the name of the in-memory database. *)
Example connect_to_db_memory :
  connect_to_db (__init__ (make_config (Some MEMORY) (txt "x"))) library_disk
  = (Ok (Conn MEMORY EmptyDb None false []), library_disk).
Proof.
  unfold connect_to_db, sqlite3_connect.
  replace (db_path (__init__ (make_config (Some MEMORY) (txt "x"))))
    with (Some MEMORY) by (vm_compute; reflexivity).
  replace (path_error MEMORY) with (@None exn) by (vm_compute; reflexivity).
  replace (names_file MEMORY) with false by (vm_compute; reflexivity).
  reflexivity.
Qed.

(** ** The call site *)



(** ** Wildcards in the title *)


(** * Further properties *)

(** ** What [get_item_id] returns *)



(** X2. Whenever [get_item_id] returns an identifier, the title is not
    empty, the connection is open on a database, the identifier is that
    of a row of [items], one of the data values linked to that row
    matches the pattern, and all the call did to the connection is the
    SELECT. *)
Theorem get_item_id_sound
    (self : ZoteroInfoUpdate) (c c' : Connection) (i : Z) :
  get_item_id self c = (Ok i, c') ->
  exists d t,
    title_name self = Some t /\ t <> [] /\
    c_closed c = false /\ db_view c = Some d /\
    is_Some (items d !! i) /\
    item_matches (like_pattern t) d i = true /\
    c' = record_op (OpSelect (like_pattern t)) c.
Proof.
  intros Hget.
  destruct (get_item_id_Ok_inv self c i c' Hget)
    as (d & t & first & rest & Ht & Hne & Hopen & Hview & Hsel).
  rewrite (get_item_id_open self c d t Ht Hne Hopen Hview), Hsel in Hget.
  injection Hget as <- <-.
  apply run_select_Ok in Hsel as [Herr Hrows].
  assert (Hin : In (r_itemID first) (matching_items (like_pattern t) d)).
  { apply select_like_matching; [exact Herr|].
    rewrite <- Hrows. left. reflexivity. }
  apply in_matching_items in Hin as [Hsome Hm].
  exists d, t. auto 10.
Qed.

Lemma get_item_id_sound_witness :
  exists d t,
    title_name (library_self (txt "Design Of Everyday")) = Some t /\
    t <> [] /\ c_closed library_conn = false /\
    db_view library_conn = Some d /\
    is_Some (items d !! 53) /\
    item_matches (like_pattern t) d 53 = true /\
    snd (get_item_id (library_self (txt "Design Of Everyday")) library_conn)
    = record_op (OpSelect (like_pattern t)) library_conn.
Proof.
  apply (get_item_id_sound
           (library_self (txt "Design Of Everyday")) library_conn
           (snd (get_item_id (library_self (txt "Design Of Everyday"))
                             library_conn)) 53).
  vm_compute. reflexivity.
Defined.

(** X3. On an open connection to a database and for a non-empty title,
    [get_item_id] returns an identifier exactly when some item of the
    database matches (the engine accepts the pattern and a data value of
    the item matches it); it does so too when several items match, and
    the identifier is then one of theirs. *)
Theorem get_item_id_succeeds_iff
    (self : ZoteroInfoUpdate) (c : Connection) (d : database) (t : text) :
  title_name self = Some t -> t <> [] ->
  c_closed c = false -> db_view c = Some d ->
  ((exists i, fst (get_item_id self c) = Ok i) <->
   matching_items (like_pattern t) d <> []) /\
  (forall i, fst (get_item_id self c) = Ok i ->
             In i (matching_items (like_pattern t) d)).
Proof.
  intros Ht Hne Hopen Hview.
  rewrite (get_item_id_open self c d t Ht Hne Hopen Hview). simpl fst.
  destruct (run_select (like_pattern t) d) as [[|first rest]|e] eqn:Hsel.
  - apply run_select_Ok in Hsel as [Herr Hrows].
    symmetry in Hrows. apply (select_like_nil_iff _ _ Herr) in Hrows.
    rewrite Hrows. split; [|discriminate].
    split; [intros [i [=]]|congruence].
  - apply run_select_Ok in Hsel as [Herr Hrows].
    assert (Hin : In (r_itemID first) (matching_items (like_pattern t) d)).
    { apply select_like_matching; [exact Herr|].
      rewrite <- Hrows. left. reflexivity. }
    split.
    + split; [|eauto]. intros _ Hnil. rewrite Hnil in Hin. destruct Hin.
    + intros i [= <-]. exact Hin.
  - split; [|discriminate].
    split; [intros [i [=]]|]. intros Hsome. exfalso.
    destruct (matching_items (like_pattern t) d) as [|j l] eqn:Hm;
      [congruence|].
    destruct (matching_run_select (like_pattern t) d j) as (f & r & Hok).
    { rewrite Hm. left. reflexivity. }
    congruence.
Qed.

Lemma get_item_id_succeeds_iff_witness :
  In 1 (matching_items (like_pattern (txt "ethics")) shelf_db) /\
  In 2 (matching_items (like_pattern (txt "ethics")) shelf_db) /\
  exists i, fst (get_item_id (library_self (txt "ethics")) shelf_conn) = Ok i.
Proof.
  pose proof (get_item_id_succeeds_iff
                (library_self (txt "ethics")) shelf_conn shelf_db (txt "ethics")
                ltac:(vm_compute; reflexivity) ltac:(discriminate)
                ltac:(reflexivity) ltac:(reflexivity)) as [Hiff _].
  split; [vm_compute; auto|].
  split; [vm_compute; auto|].
  apply Hiff. vm_compute. discriminate.
Defined.

(** ** Letter case of the title *)

Section FoldCase.

Lemma fold_case_idem (c : codepoint) : fold_case (fold_case c) = fold_case c.
Proof.
  unfold fold_case.
  destruct ((65 <=? c)%N && (c <=? 90)%N) eqn:Hup; [|rewrite Hup; reflexivity].
  apply andb_true_iff in Hup as [Hlo Hhi].
  apply N.leb_le in Hlo, Hhi.
  replace ((c + 32 <=? 90)%N) with false by (symmetry; apply N.leb_gt; lia).
  rewrite andb_false_r. reflexivity.
Qed.

(** Folding the case moves a character only inside the ASCII letters. *)
Lemma fold_case_cases (c : codepoint) :
  fold_case c = c \/ ((65 <= c <= 90)%N /\ fold_case c = (c + 32)%N).
Proof.
  unfold fold_case.
  destruct ((65 <=? c)%N && (c <=? 90)%N) eqn:Hup; [|auto].
  apply andb_true_iff in Hup as [Hlo Hhi].
  apply N.leb_le in Hlo, Hhi. auto.
Qed.

Lemma eqb_small (a b : N) : a <> b -> N.eqb a b = false.
Proof. apply N.eqb_neq. Qed.

Lemma fold_case_eqb_percent (c : codepoint) :
  N.eqb (fold_case c) PERCENT = N.eqb c PERCENT.
Proof.
  destruct (fold_case_cases c) as [->|[Hc ->]]; [reflexivity|].
  unfold PERCENT. rewrite !eqb_small by lia. reflexivity.
Qed.

Lemma fold_case_eqb_underscore (c : codepoint) :
  N.eqb (fold_case c) UNDERSCORE = N.eqb c UNDERSCORE.
Proof.
  destruct (fold_case_cases c) as [->|[Hc ->]]; [reflexivity|].
  unfold UNDERSCORE. rewrite !eqb_small by lia. reflexivity.
Qed.

Lemma fold_case_eqb_nul (c : codepoint) :
  N.eqb (fold_case c) NUL = N.eqb c NUL.
Proof.
  destruct (fold_case_cases c) as [->|[Hc ->]]; [reflexivity|].
  unfold NUL. rewrite !eqb_small by lia. reflexivity.
Qed.

Lemma fold_case_encodable (c : codepoint) :
  encodable_char (fold_case c) = encodable_char c.
Proof.
  destruct (fold_case_cases c) as [->|[Hc ->]]; [reflexivity|].
  unfold encodable_char, is_surrogate.
  replace ((55296 <=? c + 32)%N) with false by (symmetry; apply N.leb_gt; lia).
  replace ((55296 <=? c)%N) with false by (symmetry; apply N.leb_gt; lia).
  replace ((c + 32 <=? 1114111)%N) with true by (symmetry; apply N.leb_le; lia).
  replace ((c <=? 1114111)%N) with true by (symmetry; apply N.leb_le; lia).
  reflexivity.
Qed.

Lemma fold_case_utf8_size (c : codepoint) :
  utf8_size (fold_case c) = utf8_size c.
Proof.
  destruct (fold_case_cases c) as [->|[Hc ->]]; [reflexivity|].
  unfold utf8_size.
  replace ((c + 32 <? 128)%N) with true by (symmetry; apply N.ltb_lt; lia).
  replace ((c <? 128)%N) with true by (symmetry; apply N.ltb_lt; lia).
  reflexivity.
Qed.

Lemma char_eq_ci_fold (c d : codepoint) :
  char_eq_ci (fold_case c) d = char_eq_ci c d.
Proof. unfold char_eq_ci. rewrite fold_case_idem. reflexivity. Qed.

(** LIKE does not see the case of the ASCII letters of its pattern. *)
Lemma like_chars_fold_pattern (p v : text) :
  like_chars (List.map fold_case p) v = like_chars p v.
Proof.
  revert v. induction p as [|c p IH]; intros v; [reflexivity|].
  cbn [List.map like_chars].
  rewrite fold_case_eqb_percent, fold_case_eqb_underscore.
  destruct (N.eqb c PERCENT).
  - induction v as [|d v IHv].
    + rewrite IH. reflexivity.
    + rewrite IH, IHv. reflexivity.
  - destruct v as [|d v]; [reflexivity|].
    rewrite char_eq_ci_fold, IH. reflexivity.
Qed.

Lemma nul_cut_fold (t : text) :
  nul_cut (List.map fold_case t) = List.map fold_case (nul_cut t).
Proof.
  induction t as [|c t IH]; [reflexivity|].
  cbn [List.map nul_cut]. rewrite fold_case_eqb_nul.
  destruct (N.eqb c NUL); [reflexivity|].
  cbn [List.map]. rewrite IH. reflexivity.
Qed.

Lemma like_fold_pattern (p v : text) :
  like (List.map fold_case p) v = like p v.
Proof.
  unfold like. rewrite nul_cut_fold. apply like_chars_fold_pattern.
Qed.

Lemma encodable_fold (t : text) :
  encodable (List.map fold_case t) = encodable t.
Proof.
  unfold encodable. induction t as [|c t IH]; [reflexivity|].
  simpl. rewrite fold_case_encodable, IH. reflexivity.
Qed.

Lemma utf8_length_fold (t : text) :
  utf8_length (List.map fold_case t) = utf8_length t.
Proof.
  unfold utf8_length. induction t as [|c t IH]; [reflexivity|].
  simpl. rewrite fold_case_utf8_size, IH. reflexivity.
Qed.

Lemma like_pattern_fold (t : text) :
  like_pattern (List.map fold_case t) = List.map fold_case (like_pattern t).
Proof.
  unfold like_pattern. rewrite !List.map_app. reflexivity.
Qed.

Lemma select_like_ext (p q : text) (d : database) :
  (forall v, like p v = like q v) -> select_like p d = select_like q d.
Proof.
  intros Hpq. unfold select_like, join_link.
  apply flat_map_ext. intros link.
  apply flat_map_ext. intros idv. rewrite Hpq. reflexivity.
Qed.

(** Two patterns equal up to ASCII case give the same outcome of the
    SELECT. *)
Lemma run_select_fold (p q : text) (d : database) :
  List.map fold_case p = List.map fold_case q ->
  run_select p d = run_select q d.
Proof.
  intros Hpq. unfold run_select, select_error, too_long.
  rewrite <- (encodable_fold p), <- (encodable_fold q), Hpq.
  rewrite <- (utf8_length_fold p), <- (utf8_length_fold q), Hpq.
  rewrite (select_like_ext p q d); [reflexivity|].
  intros v. rewrite <- (like_fold_pattern p), <- (like_fold_pattern q), Hpq.
  reflexivity.
Qed.

End FoldCase.

(** X4. Two titles that differ only in the case of ASCII letters
    resolve alike: on the same connection [get_item_id] returns an
    identifier for the one exactly when it returns that identifier for
    the other. *)
Theorem get_item_id_title_case
    (self1 self2 : ZoteroInfoUpdate) (t1 t2 : text) (c : Connection) (i : Z) :
  title_name self1 = Some t1 -> title_name self2 = Some t2 ->
  List.map fold_case t1 = List.map fold_case t2 ->
  fst (get_item_id self1 c) = Ok i <-> fst (get_item_id self2 c) = Ok i.
Proof.
  intros H1 H2 Hfold.
  assert (Hsel : forall d, run_select (like_pattern t1) d
                           = run_select (like_pattern t2) d).
  { intros d. apply run_select_fold.
    rewrite <- !like_pattern_fold, Hfold. reflexivity. }
  assert (Hfail : forall self,
             (c_closed c = true \/ db_view c = None) ->
             fst (get_item_id self c) <> Ok i).
  { intros self Hbad Hok.
    destruct (get_item_id self c) as [[j|e] c'] eqn:Hget; [|discriminate].
    apply get_item_id_Ok_inv in Hget
      as (d & t & _ & _ & _ & _ & Hopen & Hview & _).
    destruct Hbad; congruence. }
  destruct t1 as [|a1 t1], t2 as [|a2 t2]; try discriminate.
  { unfold get_item_id. rewrite H1, H2. reflexivity. }
  destruct (c_closed c) eqn:Hopen.
  { split; intros Hok; exfalso; revert Hok; apply Hfail; auto. }
  destruct (db_view c) as [d|] eqn:Hview.
  2: { split; intros Hok; exfalso; revert Hok; apply Hfail; auto. }
  rewrite (get_item_id_open self1 c d (a1 :: t1) H1 ltac:(discriminate)
             Hopen Hview).
  rewrite (get_item_id_open self2 c d (a2 :: t2) H2 ltac:(discriminate)
             Hopen Hview).
  rewrite (Hsel d). simpl fst.
  destruct (run_select (like_pattern (a2 :: t2)) d) as [[|first rest]|e];
    try reflexivity.
  split; discriminate.
Qed.

Lemma get_item_id_title_case_witness :
  fst (get_item_id (library_self (txt "DESIGN of everyDAY")) library_conn)
  = Ok 53.
Proof.
  apply (get_item_id_title_case
           (library_self (txt "Design Of Everyday"))
           (library_self (txt "DESIGN of everyDAY"))
           (txt "Design Of Everyday") (txt "DESIGN of everyDAY")
           library_conn 53
           ltac:(vm_compute; reflexivity) ltac:(vm_compute; reflexivity)
           ltac:(vm_compute; reflexivity)).
  vm_compute. reflexivity.
Defined.

(** ** How [update_date_added] composes with [get_item_id] *)

(** X5. [update_date_added] runs its UPDATE only after its call of
    [get_item_id] has returned: when that call raises, it raises the
    same exception and leaves the connection as the call left it.  When
    the call returns an identifier, the UPDATE is run on it: if the
    UPDATE raises (no date to write into the NOT NULL column, a date
    that cannot be encoded, a file that cannot be written), that
    exception comes out, nothing is committed and the transaction the
    UPDATE began stays open; otherwise the commit follows. *)
Theorem update_date_added_follows_resolution
    (self : ZoteroInfoUpdate) (c : Connection) :
  match get_item_id self c with
  | (Raise e, c1) => update_date_added self c = (Raise e, c1)
  | (Ok i, c1) =>
      exists d c2,
        db_view c = Some d /\
        match update_error (new_date_added self) i (c_store c) d with
        | Some e =>
            update_date_added self c = (Raise e, c2) /\
            c_trace c2 = c_trace c1 ++ [OpUpdate (new_date_added self) i] /\
            c_store c2 = c_store c /\ c_txn c2 = Some d
        | None =>
            update_date_added self c = (Ok tt, c2) /\
            c_trace c2
            = c_trace c1 ++ [OpUpdate (new_date_added self) i; OpCommit] /\
            c_txn c2 = None
        end
  end.
Proof.
  destruct (get_item_id self c) as [[i|e] c1] eqn:Hget.
  - destruct (get_item_id_Ok_inv self c i c1 Hget)
      as (d & t & first & rest & Ht & Hne & Hopen & Hview & Hsel).
    rewrite (get_item_id_open self c d t Ht Hne Hopen Hview), Hsel in Hget.
    injection Hget as <- <-.
    destruct (update_error (new_date_added self) (r_itemID first)
                           (c_store c) d) as [e|] eqn:Herr.
    + exists d, (failed_conn self c t (r_itemID first) d).
      rewrite Herr.
      rewrite (update_date_added_update_raises self c d t first rest e
                 Ht Hne Hopen Hview Hsel Herr).
      repeat split; try reflexivity; try assumption.
      simpl. rewrite <- app_assoc. reflexivity.
    + exists d, (updated_conn self c t (r_itemID first) d).
      rewrite Herr.
      rewrite (update_date_added_open self c d t first rest
                 Ht Hne Hopen Hview Hsel Herr).
      repeat split; try reflexivity; try assumption.
      simpl. rewrite <- app_assoc. reflexivity.
  - apply update_date_added_raises. exact Hget.
Qed.



(** X7. Neither method closes the connection or moves it to another
    file: after [get_item_id] and after [update_date_added], whatever
    their outcome, the connection is open exactly if it was and is on
    the same path.  (Their [finally] clauses log "Database connection
    closed." and call nothing.) *)
Theorem methods_never_close (self : ZoteroInfoUpdate) (c : Connection) :
  (c_closed (snd (get_item_id self c)) = c_closed c /\
   c_path (snd (get_item_id self c)) = c_path c) /\
  (c_closed (snd (update_date_added self c)) = c_closed c /\
   c_path (snd (update_date_added self c)) = c_path c).
Proof.
  assert (Hget : c_closed (snd (get_item_id self c)) = c_closed c /\
                 c_path (snd (get_item_id self c)) = c_path c).
  { destruct (get_item_id self c) as [r c1] eqn:Hrun.
    destruct (get_item_id_state self c r c1 Hrun) as (Hp & _ & _ & Hcl & _).
    auto. }
  split; [exact Hget|].
  destruct (update_date_added_cases self c)
    as [(e & c1 & Hrun & Hfail)
       |(d & t & first & rest & Ht & Hne & Hopen & Hview & Hsel)].
  - rewrite Hfail. rewrite Hrun in Hget. exact Hget.
  - destruct (update_error (new_date_added self) (r_itemID first)
                           (c_store c) d) as [e|] eqn:Herr.
    + rewrite (update_date_added_update_raises self c d t first rest e
                 Ht Hne Hopen Hview Hsel Herr).
      simpl. auto.
    + rewrite (update_date_added_open self c d t first rest
                 Ht Hne Hopen Hview Hsel Herr).
      simpl. auto.
Qed.

(** X8. The UPDATE never changes what the title resolves to: after
    [update_date_added], whatever its outcome, [get_item_id] gives on
    the connection the outcome it gave before. *)
Theorem get_item_id_after_update (self : ZoteroInfoUpdate) (c : Connection) :
  fst (get_item_id self (snd (update_date_added self c)))
  = fst (get_item_id self c).
Proof.
  destruct (update_date_added_cases self c)
    as [(e & c1 & Hget & Hfail)
       |(d & t & first & rest & Ht & Hne & Hopen & Hview & Hsel)].
  - rewrite Hfail. simpl snd.
    destruct (get_item_id_state self c _ _ Hget)
      as (_ & Hst & Htxn & Hcl & _).
    apply get_item_id_ext; assumption.
  - destruct (update_error (new_date_added self) (r_itemID first)
                           (c_store c) d) as [e|] eqn:Herr.
    + rewrite (update_date_added_update_raises self c d t first rest e
                 Ht Hne Hopen Hview Hsel Herr).
      simpl snd.
      apply (get_item_id_view self _ c d); [reflexivity|exact Hopen
                                           |reflexivity|exact Hview].
    + rewrite (update_date_added_open self c d t first rest
                 Ht Hne Hopen Hview Hsel Herr).
      simpl snd.
      rewrite (get_item_id_open self c d t Ht Hne Hopen Hview), Hsel.
      rewrite (get_item_id_open self
                 (updated_conn self c t (r_itemID first) d)
                 (update_items (new_date_added self) (r_itemID first) d) t
                 Ht Hne eq_refl eq_refl).
      rewrite (run_select_update _ _ _ _ _ _ Hsel). simpl.
      rewrite touch_itemID. reflexivity.
Qed.

(** ** Runs of the script *)

Section ScriptRuns.

Variable cfg : gmap string text.
Variable disk : Disk.

Lemma connect_to_db_Ok_inv (c : Connection) (disk0 : Disk) :
  connect_to_db (__init__ cfg) disk = (Ok c, disk0) ->
  exists p,
    db_path (__init__ cfg) = Some p /\
    c = Conn p (c_store c) None false [] /\
    ((names_file p = true /\
      disk !! p = Some (File (c_store c)) /\ disk0 = disk) \/
     (names_file p = true /\ disk !! p = None /\ c_store c = EmptyDb /\
      disk0 = <[p := File EmptyDb]> disk) \/
     (names_file p = false /\ c_store c = EmptyDb /\ disk0 = disk)).
Proof.
  unfold connect_to_db, sqlite3_connect.
  destruct (db_path (__init__ cfg)) as [p|]; [|discriminate].
  destruct (path_error p); [discriminate|].
  destruct (names_file p) eqn:Hnf.
  - destruct (disk !! p) as [[|f]|] eqn:Hp; try discriminate;
      intros [= <- <-]; exists p; simpl; auto 10.
  - intros [= <- <-]. exists p. simpl. auto 10.
Qed.



(** What a successful run was given. *)
Lemma main_Ok_inv (l : Locals) (disk' : Disk) :
  main cfg disk = (Ok tt, l, disk') ->
  exists p d t first rest,
    db_path (__init__ cfg) = Some p /\ names_file p = true /\
    disk !! p = Some (File (ZoteroDb d)) /\
    title_name (__init__ cfg) = Some t /\ t <> [] /\
    run_select (like_pattern t) d = Ok (first :: rest) /\
    update_error (new_date_added (__init__ cfg)) (r_itemID first)
                 (ZoteroDb d) d = None /\
    l = Vars (Some (close (updated_conn (__init__ cfg)
                             (record_op (OpSelect (like_pattern t))
                                        (Conn p (ZoteroDb d) None false []))
                             t (r_itemID first) d)))
             (Some (r_itemID first)) /\
    disk' = <[p := File (ZoteroDb
                           (update_items (new_date_added (__init__ cfg))
                                         (r_itemID first) d))]> disk.
Proof.
  intros Hmain.
  destruct (main_succeeds cfg disk l disk' Hmain)
    as (c0 & disk0 & d & t & first & rest
        & Hconn & Ht & Hne & Hview & Hsel & Herr & Hl & Hdisk).
  destruct (connect_to_db_Ok_inv c0 disk0 Hconn) as (p & Hpath & Hc0 & Hcases).
  assert (Hstore : c_store c0 = ZoteroDb d).
  { pose proof (update_error_writable _ _ _ _ Herr) as Hw.
    rewrite Hc0 in Hview. unfold db_view in Hview. simpl in Hview.
    destruct (c_store c0); simpl in Hw; congruence. }
  rewrite Hstore in Hc0, Herr, Hcases.
  destruct Hcases as [(Hnf & Hfile & ->)|[(_ & _ & He & _)|(_ & He & _)]];
    try discriminate.
  subst c0.
  exists p, d, t, first, rest. repeat split; try assumption.
  rewrite Hdisk. unfold write_back. simpl. rewrite Hnf. reflexivity.
Qed.


End ScriptRuns.

(** X9. The script succeeds only if a database path is configured and
    names a file, the file at that path is a Zotero database that can be
    written, a title and a date are configured, the title is not empty,
    the date can be encoded, and the item whose identifier the script
    bound to [itemId] is one of the items that match the title. *)
Theorem main_succeeds_only_if
    (cfg : gmap string text) (disk : Disk) (l : Locals) (disk' : Disk) :
  main cfg disk = (Ok tt, l, disk') ->
  exists p d t nd i,
    db_path (__init__ cfg) = Some p /\ names_file p = true /\
    disk !! p = Some (File (ZoteroDb d)) /\
    title_name (__init__ cfg) = Some t /\ t <> [] /\
    new_date_added (__init__ cfg) = Some nd /\ encodable nd = true /\
    v_itemId l = Some i /\
    In i (matching_items (like_pattern t) d).
Proof.
  intros Hmain.
  destruct (main_Ok_inv cfg disk l disk' Hmain)
    as (p & d & t & first & rest
        & Hpath & Hnf & Hfile & Ht & Hne & Hsel & Herr & -> & _).
  apply run_select_Ok in Hsel as [Hserr Hrows].
  assert (Hfirst : In first (select_like (like_pattern t) d))
    by (rewrite <- Hrows; left; reflexivity).
  pose proof (select_like_matching _ _ _ Hserr Hfirst) as Hmatch.
  apply in_select_like in Hfirst as (idv & link & i & _ & _ & _ & Hi & _ & ->).
  simpl r_itemID in *.
  revert Herr. unfold update_error.
  destruct (new_date_added (__init__ cfg)) as [nd|] eqn:Hnd.
  - simpl default. destruct (encodable nd) eqn:Henc; [|discriminate].
    intros _. exists p, d, t, nd, (id_itemID link). auto 12.
  - simpl. rewrite Hi. discriminate.
Qed.

Lemma main_succeeds_only_if_witness :
  exists p d t nd i,
    db_path (__init__ library_config) = Some p /\ names_file p = true /\
    library_disk !! p = Some (File (ZoteroDb d)) /\
    title_name (__init__ library_config) = Some t /\ t <> [] /\
    new_date_added (__init__ library_config) = Some nd /\
    encodable nd = true /\
    v_itemId (snd (fst (main library_config library_disk))) = Some i /\
    In i (matching_items (like_pattern t) d).
Proof.
  apply (main_succeeds_only_if library_config library_disk
           (snd (fst (main library_config library_disk)))
           (snd (main library_config library_disk))).
  vm_compute. reflexivity.
Defined.









(** ** The configuration *)

(** X14. The object built from the dictionary of [config.py] has the
    title and the new date of the module, whatever they are, and has a
    database path exactly when [DB_PATH] is in the environment. *)
Theorem config_attributes (DB_PATH : option text) (TITLE_NAME : text) :
  db_path (__init__ (make_config DB_PATH TITLE_NAME)) = DB_PATH /\
  new_date_added (__init__ (make_config DB_PATH TITLE_NAME))
  = Some NEW_DATE_ADDED /\
  title_name (__init__ (make_config DB_PATH TITLE_NAME)) = Some TITLE_NAME.
Proof.
  unfold __init__, make_config. cbn [db_path new_date_added title_name].
  destruct DB_PATH as [p|]; repeat split;
    repeat (rewrite lookup_insert_eq
            || (rewrite lookup_insert_ne by discriminate)
            || rewrite lookup_empty);
    reflexivity.
Qed.

(** ** A title made of ['%'] *)

Section Percent.




End Percent.


